(** * The canonical form of a MapReduce-like round: constructor checks and summary

    A shallow embedding of
    [tensorflow_federated/python/core/backends/mapreduce/canonical_form.py]:
    the nine-argument constructor [CanonicalForm.__init__], the read-only
    properties and [CanonicalForm.summary].

    Python expressions that may raise are computations in the exception monad
    [Res]; the instance under construction is its attribute dictionary, a
    [gmap string Computation], threaded through the state-and-exception monad
    [Py].  The arguments of the constructor are Python values: what the
    constructor tests or reads of them is kept, that they are computations is
    not assumed. *)

From stdpp Require Import base option strings list gmap.

Open Scope string_scope.
Open Scope nat_scope.

(** ** TFF types *)

(** Modelled from the spec: the classes of [computation_types] are not part of
    the module under study.  A type is a tensor, an ordered struct whose fields
    are optionally named, a sequence or a function whose parameter may be
    absent ([None] in Python). *)
#[local] Unset Elimination Schemes.
Inductive Type_ : Type :=
| TensorType (dtype : string) (shape : list nat)
| NamedTupleType (elements : list (option string * Type_))
| SequenceType (element : Type_)
| FunctionType (parameter : option Type_) (result : Type_).
#[local] Set Elimination Schemes.

(** The induction principle of [Type_], through the fields of a struct and
    the parameter of a function. *)
Section Type_ind.

Variable P : Type_ → Prop.
Hypothesis Htensor : ∀ d s, P (TensorType d s).
Hypothesis Hstruct : ∀ es, Forall (λ e, P e.2) es → P (NamedTupleType es).
Hypothesis Hsequence : ∀ e, P e → P (SequenceType e).
Hypothesis Hfunction :
    ∀ p r, (∀ x, p = Some x → P x) → P r → P (FunctionType p r).

Fixpoint Type__ind (t : Type_) : P t :=
    match t with
    | TensorType d s => Htensor d s
    | NamedTupleType es =>
        Hstruct es
          ((fix all (xs : list (option string * Type_))
              : Forall (λ e, P e.2) xs :=
              match xs with
              | [] => @List.Forall_nil _ (λ e, P e.2)
              | (n, t') :: xs' =>
                  @List.Forall_cons _ (λ e, P e.2) (n, t') xs' (Type__ind t')
                    (all xs')
              end) es)
    | SequenceType e => Hsequence e (Type__ind e)
    | FunctionType p r =>
        Hfunction p r
          (match p with
           | Some x => λ y H, eq_ind x P (Type__ind x) y (Some_inj _ _ H)
           | None => λ y H, match None_ne_Some _ H with end
           end)
          (Type__ind r)
    end.

End Type_ind.

(** Modelled from the spec: structural equality of types ([__eq__]); tensors
    compare dtype and shape, structs compare their fields position by position,
    functions compare parameter and result. *)
Fixpoint type_eqb (a b : Type_) {struct a} : bool :=
  match a, b with
  | TensorType d s, TensorType d' s' =>
      bool_decide (d = d') && bool_decide (s = s')
  | NamedTupleType es, NamedTupleType es' =>
      (fix fields (xs ys : list (option string * Type_)) {struct xs} : bool :=
         match xs, ys with
         | [], [] => true
         | (n, t) :: xs', (n', t') :: ys' =>
             bool_decide (n = n') && type_eqb t t' && fields xs' ys'
         | _, _ => false
         end) es es'
  | SequenceType e, SequenceType e' => type_eqb e e'
  | FunctionType p r, FunctionType p' r' =>
      match p, p' with
      | Some x, Some y => type_eqb x y
      | None, None => true
      | _, _ => false
      end && type_eqb r r'
  | _, _ => false
  end.

(** A Python value that is either [None] or a type: what [.parameter] yields. *)
Definition value_eqb (x y : option Type_) : bool :=
  match x, y with
  | Some a, Some b => type_eqb a b
  | None, None => true
  | _, _ => false
  end.

(** The Python operator [!=] on such values. *)
Definition ne (x y : option Type_) : bool := negb (value_eqb x y).

(** ** The arguments of the constructor *)

(** The value of the private attribute [_computation_proto]: either a
    [computation_pb2.Computation] message, of which only the answer of
    [WhichOneof('computation')] is read ([None] when no variant is set), or
    anything else. *)
Inductive Proto : Type :=
| NotAComputationProto
| ComputationProto (WhichOneof : option string).

(** A value passed for one of the nine stages, through what the constructor
    tests and reads of it: whether it is an instance of
    [computation_base.Computation], its attribute [_computation_proto] when it
    has one, and its [type_signature]. *)
Record Computation : Type := {
  isinstance_Computation : bool;
  _computation_proto : option Proto;
  type_signature : Type_
}.

(** ** Exceptions *)

(** [TypeError] and [AssertionError] are the exceptions raised by the [raise]
    statements of the constructor, with their message.  The others are raised
    inside the library calls or by the interpreter:
    [check_type_failed] inside [py_typecheck.check_type], with the label that
    the call was given, if any,
    [check_len_failed] inside [py_typecheck.check_len],
    [not_assignable] inside [type_analysis.check_assignable_from],
    [not_subscriptable] by [x[i]] when [x] has no [__getitem__],
    [no_len] by [len(x)] when [x] has no [__len__],
    [IndexError] by [x[i]] past the end of a struct, and
    [AttributeError] by the read of an attribute that is absent. *)
Inductive Exn : Type :=
| TypeError (msg : string)
| AssertionError (msg : string)
| check_type_failed (label : option string)
| check_len_failed
| not_assignable (target source : Type_)
| not_subscriptable
| no_len
| IndexError
| AttributeError.

Inductive Res (A : Type) : Type :=
| Raise (e : Exn)
| Return (a : A).
Arguments Raise {A} e.
Arguments Return {A} a.

Global Instance Res_ret : MRet Res := λ A a, Return a.
Global Instance Res_bind : MBind Res := λ A B f m,
  match m with
  | Raise e => Raise e
  | Return a => f a
  end.
Global Instance Res_throw : MThrow Exn Res := λ A e, Raise e.

Definition succeeds {A} (m : Res A) : bool :=
  match m with Return _ => true | Raise _ => false end.

(** [if c: raise e] *)
Definition raise_if (c : bool) (e : Exn) : Res unit :=
  if c then mthrow e else mret tt.

(** [for x in l: body(x)] *)
Fixpoint for_each {A} (body : A → Res unit) (l : list A) : Res unit :=
  match l with
  | [] => mret tt
  | x :: l' => body x ;; for_each body l'
  end.

(** ** Attribute access, subscripts and the library checks *)

(** Modelled from the spec: the read of an attribute on a struct type yields
    the field of that name, as the library's [AnonymousTuple.__getattr__]
    does; the names of the fields of a struct are distinct. *)
Fixpoint named_field (name : string) (es : list (option string * Type_))
    : option Type_ :=
  match es with
  | [] => None
  | (n, t) :: es' =>
      if bool_decide (n = Some name) then Some t else named_field name es'
  end.

(** [t.parameter] and [t.result]: the two attributes of a function type; on a
    struct type, its field of that name; absent on the other types. *)
Definition parameter (t : Type_) : Res (option Type_) :=
  match t with
  | FunctionType p _ => mret p
  | NamedTupleType es =>
      match named_field "parameter" es with
      | Some x => mret (Some x)
      | None => mthrow AttributeError
      end
  | _ => mthrow AttributeError
  end.

Definition result (t : Type_) : Res Type_ :=
  match t with
  | FunctionType _ r => mret r
  | NamedTupleType es =>
      match named_field "result" es with
      | Some x => mret x
      | None => mthrow AttributeError
      end
  | _ => mthrow AttributeError
  end.

(** [isinstance(t, computation_types.FunctionType)] *)
Definition isinstance_FunctionType (t : Type_) : bool :=
  match t with
  | FunctionType _ _ => true
  | _ => false
  end.

(** [isinstance(x, computation_types.NamedTupleType)] *)
Definition isinstance_NamedTupleType (x : option Type_) : bool :=
  match x with
  | Some (NamedTupleType _) => true
  | _ => false
  end.

(** [len(x)]: only struct types have a length. *)
Definition len (x : option Type_) : Res nat :=
  match x with
  | Some (NamedTupleType es) => mret (length es)
  | _ => mthrow no_len
  end.

(** [x[i]]: the type of the [i]-th field of a struct type. *)
Definition getitem (x : option Type_) (i : nat) : Res Type_ :=
  match x with
  | Some (NamedTupleType es) =>
      match es !! i with
      | Some (_, t) => mret t
      | None => mthrow IndexError
      end
  | _ => mthrow not_subscriptable
  end.

(** [not isinstance(x, computation_types.NamedTupleType) or len(x) != 2],
    with the short-circuit of [or]. *)
Definition not_a_two_tuple (x : option Type_) : Res bool :=
  if negb (isinstance_NamedTupleType x) then mret true
  else n ← len x; mret (negb (n =? 2)).

(** [py_typecheck.check_type(t, computation_types.FunctionType)] *)
Definition check_type_FunctionType (t : Type_) : Res unit :=
  match t with
  | FunctionType _ _ => mret tt
  | _ => mthrow (check_type_failed None)
  end.

(** [py_typecheck.check_len(x, n)] *)
Definition check_len (x : option Type_) (n : nat) : Res unit :=
  k ← len x;
  raise_if (negb (k =? n)) check_len_failed.

(** [computation_types.to_type] on a Python list of types: the struct of
    these types, its fields unnamed. *)
Definition to_type (ts : list Type_) : Type_ :=
  NamedTupleType ((λ t, (None, t)) <$> ts).

(** ['{}'.format(x)] for the answer of [WhichOneof]. *)
Definition format_which (which_comp : option string) : string :=
  match which_comp with
  | Some s => s
  | None => "None"
  end.

(** ['{:<10}'.format(name)]: [name] padded on the right with spaces up to ten
    characters, and unchanged when it is longer. *)
Fixpoint spaces (n : nat) : string :=
  match n with
  | O => ""
  | S n' => " " +:+ spaces n'
  end.

Definition ljust (name : string) (width : nat) : string :=
  name +:+ spaces (width - String.length name).

(** ** The instance: state and exceptions *)

(** The attribute dictionary of a [CanonicalForm] instance. *)
Abbreviation Self := (gmap string Computation).

Definition Py (A : Type) : Type := Self → Res A * Self.

Global Instance Py_ret : MRet Py := λ A a self, (Return a, self).
Global Instance Py_bind : MBind Py := λ A B f m self,
  match m self with
  | (Raise e, self') => (Raise e, self')
  | (Return a, self') => f a self'
  end.

(** A computation that does not touch the instance. *)
Definition lift {A} (m : Res A) : Py A := λ self, (m, self).

(** [self.name = value] *)
Definition setattr (name : string) (value : Computation) : Py unit :=
  λ self, (Return tt, <[name := value]> self).

(** [self.name] *)
Definition getattr (name : string) : Py Computation :=
  λ self,
    (match self !! name with
     | Some value => Return value
     | None => Raise AttributeError
     end, self).

Section CanonicalForm.

  (** Modelled from the spec: the type compatibility oracle behind
      [type_analysis.check_assignable_from] (target first, source second). *)
Variable is_assignable_from : Type_ → Type_ → bool.

  (** Modelled from the spec: the rendering of a type by ['{}'.format] in the
      error messages, and by [compact_representation()] in the summary. *)
Variable format_type : Type_ → string.
Variable compact_representation : Type_ → string.

  (** ['{}'.format(x)] for a value that is [None] or a type. *)
Definition format_value (x : option Type_) : string :=
    match x with
    | Some t => format_type t
    | None => "None"
    end.

  (** [type_analysis.check_assignable_from(target, source)]; a target that is
      not a type is refused by the type check of the library. *)
Definition check_assignable_from (target : option Type_) (source : Type_)
    : Res unit :=
    match target with
    | Some t =>
        raise_if (negb (is_assignable_from t source)) (not_assignable t source)
    | None => mthrow (check_type_failed None)
    end.

  (** [comp._computation_proto] *)
Definition get_computation_proto (comp : Computation) : Res Proto :=
    match _computation_proto comp with
    | Some comp_proto => mret comp_proto
    | None => mthrow AttributeError
    end.

  (** The body of the loop over the nine labelled arguments:
      [py_typecheck.check_type(comp, computation_base.Computation, label)],
      the read of [comp._computation_proto], the test that it is a
      [computation_pb2.Computation] and the test of its kind. *)
Definition check_computation (label : string) (comp : Computation)
    : Res unit :=
    raise_if (negb (isinstance_Computation comp))
      (check_type_failed (Some label));;
    comp_proto ← get_computation_proto comp;
    match comp_proto with
    | NotAComputationProto =>
        mthrow (AssertionError
                  "Cannot find the embedded computation definition.")
    | ComputationProto which_comp =>
        raise_if (bool_decide (which_comp ≠ Some "tensorflow"))
          (TypeError
             ("Expected all computations supplied as arguments to "
              +:+ "be plain TensorFlow, found " +:+ format_which which_comp
              +:+ "."))
    end.

  (** The checks of [__init__], in the order of the source. *)
Definition validate
      (initialize prepare work zero accumulate merge report bitwidth update
       : Computation) : Res unit :=
    for_each (λ '(label, comp), check_computation label comp)
      [("initialize", initialize); ("prepare", prepare); ("work", work);
       ("zero", zero); ("accumulate", accumulate); ("merge", merge);
       ("report", report); ("bitwidth", bitwidth); ("update", update)];;

    prepare_parameter ← parameter (type_signature prepare);
    initialize_result ← result (type_signature initialize);
    raise_if (ne prepare_parameter (Some initialize_result))
      (TypeError
         ("The `prepare` computation expects an argument of type "
          +:+ format_value prepare_parameter
          +:+ ", which does not match the result type "
          +:+ format_type initialize_result +:+ " of `initialize`."));;

    work_parameter ← parameter (type_signature work);
    c ← not_a_two_tuple work_parameter;
    raise_if c
      (TypeError
         ("The `work` computation expects an argument of type "
          +:+ format_value work_parameter +:+ " that is not a two-tuple."));;

    work_parameter_1 ← getitem work_parameter 1;
    prepare_result ← result (type_signature prepare);
    raise_if (ne (Some work_parameter_1) (Some prepare_result))
      (TypeError
         ("The `work` computation expects an argument tuple with type "
          +:+ format_type work_parameter_1 +:+ " as "
          +:+ "the second element (the initial client state from the server), "
          +:+ "which does not match the result type "
          +:+ format_type prepare_result +:+ " of `prepare`."));;

    work_result ← result (type_signature work);
    c ← not_a_two_tuple (Some work_result);
    raise_if c
      (TypeError
         ("The `work` computation returns a result  of type "
          +:+ format_type work_result +:+ " that is not a two-tuple."));;

    check_type_FunctionType (type_signature zero);;

    check_type_FunctionType (type_signature accumulate);;
    accumulate_parameter ← parameter (type_signature accumulate);
    check_len accumulate_parameter 2;;
    accumulate_parameter_0 ← getitem accumulate_parameter 0;
    zero_result ← result (type_signature zero);
    check_assignable_from (Some accumulate_parameter_0) zero_result;;
    accumulate_parameter_1 ← getitem accumulate_parameter 1;
    work_result_0 ← getitem (Some work_result) 0;
    work_result_0_0 ← getitem (Some work_result_0) 0;
    raise_if (ne (Some accumulate_parameter_1) (Some work_result_0_0))
      (TypeError
         ("The `accumulate` computation expects a second argument of type "
          +:+ format_type accumulate_parameter_1
          +:+ ", which does not match the expected "
          +:+ format_type work_result_0_0 +:+ " as implied by the type "
          +:+ "signature of `work`."));;
    accumulate_result ← result (type_signature accumulate);
    check_assignable_from (Some accumulate_parameter_0) accumulate_result;;

    check_type_FunctionType (type_signature merge);;
    merge_parameter ← parameter (type_signature merge);
    check_len merge_parameter 2;;
    merge_parameter_0 ← getitem merge_parameter 0;
    check_assignable_from (Some merge_parameter_0) accumulate_result;;
    merge_parameter_1 ← getitem merge_parameter 1;
    check_assignable_from (Some merge_parameter_1) accumulate_result;;
    merge_result ← result (type_signature merge);
    check_assignable_from (Some merge_parameter_0) merge_result;;

    check_type_FunctionType (type_signature report);;
    report_parameter ← parameter (type_signature report);
    check_assignable_from report_parameter merge_result;;

    check_type_FunctionType (type_signature bitwidth);;

    report_result ← result (type_signature report);
    work_result_0_1 ← getitem (Some work_result_0) 1;
    let expected_update_parameter_type :=
      to_type [initialize_result; to_type [report_result; work_result_0_1]] in
    update_parameter ← parameter (type_signature update);
    raise_if (ne update_parameter (Some expected_update_parameter_type))
      (TypeError
         ("The `update` computation expects an argument of type "
          +:+ format_value update_parameter
          +:+ ", which does not match the expected "
          +:+ format_type expected_update_parameter_type
          +:+ " as implied by the type "
          +:+ "signatures of `initialize`, `report`, and `work`."));;

    update_result ← result (type_signature update);
    c ← not_a_two_tuple (Some update_result);
    raise_if c
      (TypeError
         ("The `update` computation returns a result  of type "
          +:+ format_type update_result +:+ " that is not "
          +:+ "a two-tuple."));;

    update_result_0 ← getitem (Some update_result) 0;
    raise_if (ne (Some update_result_0) (Some initialize_result))
      (TypeError
         ("The `update` computation returns a result tuple with type "
          +:+ format_type update_result_0 +:+ " as "
          +:+ "the first element (the updated state of the server), which does "
          +:+ "not match the result type "
          +:+ format_type initialize_result +:+ " of `initialize`.")).

  (** The nine assignments that end [__init__]. *)
Definition assign
      (initialize prepare work zero accumulate merge report bitwidth update
       : Computation) : Py unit :=
    setattr "_initialize" initialize;;
    setattr "_prepare" prepare;;
    setattr "_work" work;;
    setattr "_zero" zero;;
    setattr "_accumulate" accumulate;;
    setattr "_merge" merge;;
    setattr "_report" report;;
    setattr "_bitwidth" bitwidth;;
    setattr "_update" update.

Definition __init__
      (initialize prepare work zero accumulate merge report bitwidth update
       : Computation) : Py unit :=
    lift (validate initialize prepare work zero accumulate merge report
            bitwidth update);;
    assign initialize prepare work zero accumulate merge report bitwidth
      update.

  (** The call [CanonicalForm(initialize, ..., update)]: [__init__] runs on a
      fresh instance, which is returned unless [__init__] raises. *)
Definition new
      (initialize prepare work zero accumulate merge report bitwidth update
       : Computation) : Res Self :=
    match __init__ initialize prepare work zero accumulate merge report
            bitwidth update ∅ with
    | (Return _, self) => Return self
    | (Raise e, _) => Raise e
    end.

  (** The read-only properties. *)
Definition initialize : Py Computation := getattr "_initialize".
Definition prepare : Py Computation := getattr "_prepare".
Definition work : Py Computation := getattr "_work".
Definition zero : Py Computation := getattr "_zero".
Definition accumulate : Py Computation := getattr "_accumulate".
Definition merge : Py Computation := getattr "_merge".
Definition report : Py Computation := getattr "_report".
Definition bitwidth : Py Computation := getattr "_bitwidth".
Definition update : Py Computation := getattr "_update".

  (** [summary(print_fn)]: the list [computations] is built first, then one
      line per entry is handed to [print_fn], which acts on a sink [W]. *)
Definition summary {W} (print_fn : string → W → W) (sink : W) : Py W :=
    c1 ← initialize; c2 ← prepare; c3 ← work; c4 ← zero; c5 ← accumulate;
    c6 ← merge; c7 ← report; c8 ← bitwidth; c9 ← initialize;
    let computations :=
      [("initialize", c1); ("prepare", c2); ("work", c3); ("zero", c4);
       ("accumulate", c5); ("merge", c6); ("report", c7); ("bitwidth", c8);
       ("update", c9)] in
    mret (foldl
            (λ out '(name, comp),
               print_fn (ljust name 10 +:+ ": "
                         +:+ compact_representation (type_signature comp)) out)
            sink computations).

End CanonicalForm.

(** ** The invariants of the specification *)

(** The invariants I1 to I12, following the words of the specification, as
    decidable predicates on nine handles.  An invariant that names the
    parameter or the result of a handle whose signature is not a function type,
    or a field that a type does not have, does not hold. *)
Module Spec.
Section Invariants.

Variable is_assignable_from : Type_ → Type_ → bool.
Variables initialize prepare work zero accumulate merge report bitwidth
    update : Computation.

  (** The type signature of a handle: parameter (possibly absent), result. *)
Definition signature (c : Computation) : option (option Type_ * Type_) :=
    match type_signature c with
    | FunctionType p r => Some (p, r)
    | _ => None
    end.

  (** The field types of a struct. *)
Definition fields (t : Type_) : option (list Type_) :=
    match t with
    | NamedTupleType es => Some (es.*2)
    | _ => None
    end.

  (** The two field types of a two-element struct. *)
Definition two_tuple (x : option Type_) : option (Type_ * Type_) :=
    t ← x;
    fs ← fields t;
    match fs with
    | [a; b] => Some (a, b)
    | _ => None
    end.

  (** The handle is a computation and its kind tag is NativeKernel. *)
Definition native_kernel (c : Computation) : bool :=
    isinstance_Computation c
    && match _computation_proto c with
       | Some (ComputationProto (Some k)) => String.eqb k "tensorflow"
       | _ => false
       end.

Definition I1 : bool :=
    default false (
      '(p, _) ← signature prepare;
      '(_, s) ← signature initialize;
      Some (value_eqb p (Some s))).

Definition I2 : bool :=
    default false (
      '(p, _) ← signature work;
      '(_, c') ← two_tuple p;
      '(_, c) ← signature prepare;
      Some (type_eqb c' c)).

Definition I3 : bool :=
    default false (
      '(_, r) ← signature work;
      _ ← two_tuple (Some r);
      Some true).

Definition I4 : bool :=
    default false (
      '(p, _) ← signature zero;
      Some (bool_decide (p = None))).

Definition I5 : bool :=
    default false (
      '(p, _) ← signature accumulate;
      '(a', u') ← two_tuple p;
      '(_, a) ← signature zero;
      '(_, r) ← signature work;
      '(bundle, _) ← two_tuple (Some r);
      us ← fields bundle;
      u ← us !! 0;
      Some (is_assignable_from a' a && type_eqb u' u)).

Definition I6 : bool :=
    default false (
      '(p, r) ← signature accumulate;
      '(a', _) ← two_tuple p;
      Some (is_assignable_from a' r)).

Definition I7 : bool :=
    default false (
      '(p, r) ← signature merge;
      '(m0, m1) ← two_tuple p;
      '(_, a) ← signature accumulate;
      Some (is_assignable_from m0 a && is_assignable_from m1 a
            && is_assignable_from m0 r)).

Definition I8 : bool :=
    default false (
      '(p, _) ← signature report;
      t ← p;
      '(_, r) ← signature merge;
      Some (is_assignable_from t r)).

Definition I9 : bool :=
    default false (
      _ ← signature bitwidth;
      Some true).

Definition I10 : bool :=
    default false (
      '(p, _) ← signature update;
      '(_, s) ← signature initialize;
      '(_, r) ← signature report;
      '(_, w) ← signature work;
      '(bundle, _) ← two_tuple (Some w);
      us ← fields bundle;
      side ← us !! 1;
      Some (value_eqb p
              (Some (NamedTupleType
                       [(None, s);
                        (None, NamedTupleType [(None, r); (None, side)])])))).

Definition I11 : bool :=
    default false (
      '(_, r) ← signature update;
      '(s', _) ← two_tuple (Some r);
      '(_, s) ← signature initialize;
      Some (type_eqb s' s)).

Definition I12 : bool :=
    forallb native_kernel
      [initialize; prepare; work; zero; accumulate; merge; report; bitwidth;
       update].

Definition all_invariants : bool :=
    I1 && I2 && I3 && I4 && I5 && I6 && I7 && I8 && I9 && I10 && I11 && I12.

  (** I4 without its first half: [zero] has a signature, of whatever
      parameter. *)
Definition I4_result_only : bool :=
    default false (
      _ ← signature zero;
      Some true).

  (** All the invariants, with I4 weakened to [I4_result_only]. *)
Definition enforced_invariants : bool :=
    I1 && I2 && I3 && I4_result_only && I5 && I6 && I7 && I8 && I9 && I10
    && I11 && I12.

End Invariants.
End Spec.

(** ** What an error message mentions *)

(** [needle in text], for Python strings. *)
Fixpoint mentions (needle text : string) : bool :=
  String.prefix needle text
  || match text with
     | EmptyString => false
     | String _ text' => mentions needle text'
     end.

(** The error that the loop of the constructor raises for a handle whose
    descriptor is of kind [which_comp]. *)
Definition kind_mismatch (which_comp : option string) : Exn :=
  TypeError
    ("Expected all computations supplied as arguments to be plain TensorFlow, "
     +:+ "found " +:+ format_which which_comp +:+ ".").

(** The error that the loop raises for a handle whose descriptor is not a
    [Computation] message. *)
Definition no_definition : Exn :=
  AssertionError "Cannot find the embedded computation definition.".

(** The labels of the nine stages, in the order of the constructor. *)
Definition labels : list string :=
  ["initialize"; "prepare"; "work"; "zero"; "accumulate"; "merge"; "report";
   "bitwidth"; "update"].

(** The instance that the nine assignments leave. *)
Definition assigned
    (initialize prepare work zero accumulate merge report bitwidth update
     : Computation) (self : Self) : Self :=
  <["_update" := update]> (<["_bitwidth" := bitwidth]> (
  <["_report" := report]> (<["_merge" := merge]> (
  <["_accumulate" := accumulate]> (<["_zero" := zero]> (
  <["_work" := work]> (<["_prepare" := prepare]> (
  <["_initialize" := initialize]> self)))))))).

(** A line of the summary: ['{:<10}: {}'.format(name, representation)]. *)
Definition line (name representation : string) : string :=
  ljust name 10 +:+ ": " +:+ representation.

(** [print_fn] that collects the lines it is given, in order. *)
Definition collect (l : string) (out : list string) : list string :=
  app out [l].

(** The lines that [summary] hands to [print_fn] for the instance built from
    the handles given; the last one is labelled [update] and renders the
    signature of [initialize]. *)
Definition summary_lines (compact_representation : Type_ → string)
    (initialize prepare work zero accumulate merge report bitwidth
     : Computation) : list string :=
  [line "initialize" (compact_representation (type_signature initialize));
   line "prepare" (compact_representation (type_signature prepare));
   line "work" (compact_representation (type_signature work));
   line "zero" (compact_representation (type_signature zero));
   line "accumulate" (compact_representation (type_signature accumulate));
   line "merge" (compact_representation (type_signature merge));
   line "report" (compact_representation (type_signature report));
   line "bitwidth" (compact_representation (type_signature bitwidth));
   line "update" (compact_representation (type_signature initialize))].

(** ** The order of the checks *)




(** ** Concrete rounds *)

Module Examples.

Definition int32 : Type_ := TensorType "int32" [].
Definition float32 : Type_ := TensorType "float32" [].
Definition empty : Type_ := NamedTupleType [].

  (** A computation of kind [which] with signature [t]. *)
Definition handle (which : string) (t : Type_) : Computation :=
    {| isinstance_Computation := true;
       _computation_proto := Some (ComputationProto (Some which));
       type_signature := t |}.

Definition tensorflow : Type_ → Computation := handle "tensorflow".

  (** A computation whose descriptor is not a [Computation] message. *)
Definition malformed (t : Type_) : Computation :=
    {| isinstance_Computation := true;
       _computation_proto := Some NotAComputationProto;
       type_signature := t |}.



  (** A rendering of types in the compact notation, to run the examples. *)
Fixpoint compact (t : Type_) : string :=
    match t with
    | TensorType d _ => d
    | NamedTupleType es =>
        "<" +:+ String.concat ","
                  ((fix go (xs : list (option string * Type_)) : list string :=
                      match xs with
                      | [] => []
                      | (_, x) :: xs' => compact x :: go xs'
                      end) es) +:+ ">"
    | SequenceType e => compact e +:+ "*"
    | FunctionType p r =>
        "(" +:+ match p with Some x => compact x | None => "" end
        +:+ " -> " +:+ compact r +:+ ")"
    end.

  (** A round with S = C = U = A = R = int32, D = int32*, X = Y = <>. *)
Definition S_ : Type_ := FunctionType None int32.
Definition initialize0 := tensorflow S_.
Definition prepare0 := tensorflow (FunctionType (Some int32) int32).
Definition work_signature (bundle : Type_) : Type_ :=
    FunctionType (Some (to_type [SequenceType int32; int32]))
      (to_type [bundle; empty]).
Definition work0 := tensorflow (work_signature (to_type [int32; int32])).
Definition zero0 := tensorflow (FunctionType None int32).
Definition accumulate0 :=
    tensorflow (FunctionType (Some (to_type [int32; int32])) int32).
Definition merge0 :=
    tensorflow (FunctionType (Some (to_type [int32; int32])) int32).
Definition report0 := tensorflow (FunctionType (Some int32) int32).
Definition bitwidth0 := tensorflow (FunctionType None int32).
Definition update_signature (X : Type_) : Type_ :=
    FunctionType (Some (to_type [int32; to_type [int32; int32]]))
      (to_type [int32; X]).
Definition update0 := tensorflow (update_signature empty).

  (** The same [update] with another server-side output X. *)
Definition update1 := tensorflow (update_signature float32).

  (** A [zero] that takes an argument. *)
Definition zero_unary := tensorflow (FunctionType (Some int32) int32).

  (** A [work] whose update bundle has no field, and one with a single field. *)
Definition work_empty_bundle := tensorflow (work_signature empty).
Definition work_short_bundle :=
    tensorflow (work_signature (to_type [int32])).

End Examples.

(** ** Structural equality decides equality *)

Lemma type_eqb_eq (a b : Type_) : type_eqb a b = true ↔ a = b.
Proof.
  revert b. induction a as [d s|es IH|e IH|p r IHp IHr] using Type__ind;
    intros [d' s'|es'|e'|p' r']; simpl; try (split; [done|congruence]).
  - rewrite andb_true_iff, !bool_decide_eq_true. intuition congruence.
  - revert es'. induction IH as [|[n t] es Ht _ IHes]; intros [|[n' t'] es'];
      try (split; [done|congruence]).
    rewrite !andb_true_iff, bool_decide_eq_true, (Ht t'), (IHes es').
    simpl. intuition congruence.
  - rewrite IH. intuition congruence.
  - rewrite andb_true_iff, IHr.
    destruct p as [x|], p' as [y|]; rewrite ?(IHp x eq_refl y);
      intuition congruence.
Qed.

Lemma type_eqb_refl (a : Type_) : type_eqb a a = true.
Proof. by apply type_eqb_eq. Qed.

Lemma value_eqb_eq (x y : option Type_) : value_eqb x y = true ↔ x = y.
Proof.
  destruct x, y; simpl; rewrite ?type_eqb_eq; intuition congruence.
Qed.

Lemma ne_false (x y : option Type_) : ne x y = false ↔ x = y.
Proof. unfold ne. rewrite negb_false_iff. apply value_eqb_eq. Qed.

Lemma ne_true (x y : option Type_) : ne x y = true ↔ x ≠ y.
Proof.
  unfold ne. rewrite negb_true_iff, <- not_true_iff_false, value_eqb_eq. done.
Qed.

(** ** The exception monad *)

Lemma succeeds_bind {A B} (m : Res A) (f : A → Res B) :
  succeeds (m ≫= f)
  = match m with Return a => succeeds (f a) | Raise _ => false end.
Proof. by destruct m. Qed.

Lemma succeeds_raise_if (c : bool) (e : Exn) : succeeds (raise_if c e) = negb c.
Proof. by destruct c. Qed.

Lemma succeeds_Return {A} (m : Res A) : succeeds m = true ↔ ∃ a, m = Return a.
Proof. destruct m; simpl; split; [done|intros [? ?]; done|eauto|done]. Qed.

Lemma for_each_succeeds {A} (body : A → Res unit) (l : list A) :
  succeeds (for_each body l) = forallb (λ x, succeeds (body x)) l.
Proof.
  induction l as [|x l IH]; simpl; [done|].
  rewrite succeeds_bind. destruct (body x) as [e|[]]; simpl; [done|apply IH].
Qed.

(** ** The loop over the nine arguments *)

Section Loop.

Lemma check_computation_succeeds label c :
    succeeds (check_computation label c) = Spec.native_kernel c.
  Proof.
    unfold check_computation, get_computation_proto, Spec.native_kernel.
    destruct (isinstance_Computation c); simpl; [|done].
    destruct (_computation_proto c) as [[|[k|]]|]; simpl; [done| |done|done].
    rewrite succeeds_raise_if.
    destruct (String.eqb_spec k "tensorflow") as [->|Hk].
    - by rewrite bool_decide_eq_false_2 by (intros H; by apply H).
    - rewrite bool_decide_eq_true_2; [done|congruence].
  Qed.

Lemma check_computation_native label c :
    Spec.native_kernel c = true → check_computation label c = Return tt.
  Proof.
    rewrite <- (check_computation_succeeds label).
    by destruct (check_computation label c) as [|[]].
  Qed.

Lemma check_computation_not_instance label c :
    isinstance_Computation c = false →
    check_computation label c = Raise (check_type_failed (Some label)).
  Proof. intros Hc. unfold check_computation. by rewrite Hc. Qed.

Lemma check_computation_undescribed label c :
    isinstance_Computation c = true →
    _computation_proto c = None →
    check_computation label c = Raise AttributeError.
  Proof.
    intros Hi Hc. unfold check_computation, get_computation_proto.
    by rewrite Hi, Hc.
  Qed.

Lemma check_computation_malformed label c :
    isinstance_Computation c = true →
    _computation_proto c = Some NotAComputationProto →
    check_computation label c = Raise no_definition.
  Proof.
    intros Hi Hc. unfold check_computation, get_computation_proto.
    by rewrite Hi, Hc.
  Qed.

Lemma check_computation_kind label c k :
    isinstance_Computation c = true →
    _computation_proto c = Some (ComputationProto k) →
    k ≠ Some "tensorflow" →
    check_computation label c = Raise (kind_mismatch k).
  Proof.
    intros Hi Hc Hk. unfold check_computation, get_computation_proto.
    rewrite Hi, Hc. simpl. by rewrite bool_decide_eq_true_2.
  Qed.

  (** The loop passes exactly when the nine handles are native kernels. *)
Lemma loop_succeeds (l : list (string * Computation)) :
    succeeds (for_each (λ '(label, comp), check_computation label comp) l)
    = forallb Spec.native_kernel (l.*2).
  Proof.
    rewrite for_each_succeeds. induction l as [|[label c] l IH]; simpl; [done|].
    by rewrite check_computation_succeeds, IH.
  Qed.

  (** The loop raises what the iteration of the first handle that is not a
      native kernel raises. *)
Lemma loop_first_offender (l : list (string * Computation)) pre c post :
    l.*2 = (pre ++ c :: post)%list →
    Forall (λ x, Spec.native_kernel x = true) pre →
    ∃ label,
      label ∈ l.*1
      ∧ ∀ e, check_computation label c = Raise e →
             for_each (λ '(label, comp), check_computation label comp) l
             = Raise e.
  Proof.
    revert l. induction pre as [|x pre IH]; intros [|[label y] l] Hl Hpre;
      simplify_eq/=.
    - exists label. split; [apply elem_of_cons; by left|]. by intros e ->.
    - inversion Hpre as [|? ? Hx Hpre']; subst.
      destruct (IH l) as (label' & Hin & Hraise); [done..|].
      exists label'. split; [apply elem_of_cons; by right|]. intros e He.
      rewrite (check_computation_native label x Hx). simpl. by apply Hraise.
  Qed.

  (** A list in which some handle is not a native kernel has a first one. *)
Lemma first_offender (l : list Computation) :
    forallb Spec.native_kernel l = false →
    ∃ pre c post,
      l = (pre ++ c :: post)%list
      ∧ Forall (λ x, Spec.native_kernel x = true) pre
      ∧ Spec.native_kernel c = false.
  Proof.
    induction l as [|x l IH]; simpl; [done|].
    destruct (Spec.native_kernel x) eqn:Hx; simpl.
    - intros (pre & c & post & -> & Hpre & Hc)%IH.
      exists (x :: pre), c, post. by repeat constructor.
    - intros _. by exists [], x, l.
  Qed.

End Loop.

Section LoopOutcome.

Variables i p w z a m r b u : Computation.

  (** The loop of the constructor over its nine labelled arguments. *)
#[local] Abbreviation loop :=
    (for_each (λ '(label, comp), check_computation label comp)
       [("initialize", i); ("prepare", p); ("work", w); ("zero", z);
        ("accumulate", a); ("merge", m); ("report", r); ("bitwidth", b);
        ("update", u)]).

Lemma loop_passes :
    Spec.I12 i p w z a m r b u = true → loop = Return tt.
  Proof.
    intros H. unfold Spec.I12 in H.
    pose proof (loop_succeeds
                  [("initialize", i); ("prepare", p); ("work", w); ("zero", z);
                   ("accumulate", a); ("merge", m); ("report", r);
                   ("bitwidth", b); ("update", u)]) as Hs.
    change (_.*2) with [i; p; w; z; a; m; r; b; u] in Hs. rewrite H in Hs.
    by destruct (for_each _ _) as [|[]].
  Qed.

  (** The four ways in which the loop fails. *)
Lemma loop_fails :
    Spec.I12 i p w z a m r b u = false →
    (∃ label, label ∈ labels ∧ loop = Raise (check_type_failed (Some label)))
    ∨ loop = Raise AttributeError
    ∨ loop = Raise no_definition
    ∨ ∃ k, k ≠ Some "tensorflow" ∧ loop = Raise (kind_mismatch k).
  Proof.
    intros (pre & c & post & Hl & Hpre & Hc)%first_offender.
    destruct (loop_first_offender
                [("initialize", i); ("prepare", p); ("work", w); ("zero", z);
                 ("accumulate", a); ("merge", m); ("report", r);
                 ("bitwidth", b); ("update", u)] pre c post Hl Hpre)
      as (label & Hlabel & Hraise).
    destruct (isinstance_Computation c) eqn:Hi.
    - right. destruct (_computation_proto c) as [[|k]|] eqn:Hproto.
      + right; left. by apply Hraise, check_computation_malformed.
      + right; right. exists k. assert (k ≠ Some "tensorflow") as Hk.
        { intros ->. unfold Spec.native_kernel in Hc.
          by rewrite Hi, Hproto in Hc. }
        split; [done|]. by apply Hraise, check_computation_kind.
      + left. by apply Hraise, check_computation_undescribed.
    - left. exists label. split; [exact Hlabel|].
      by apply Hraise, check_computation_not_instance.
  Qed.

End LoopOutcome.

(** ** What the constructor enforces *)

Section Validate.

Variable is_assignable_from : Type_ → Type_ → bool.
Variable format_type : Type_ → string.

Ltac settle := simpl; rewrite ?andb_false_r; simpl; try done.
Ltac split_on x := destruct x; settle.

  (** What the evaluation of a computation is waiting for. *)
Ltac scrutinee x :=
    lazymatch x with
    | match ?y with _ => _ end => scrutinee y
    | mbind _ ?y => scrutinee y
    | negb ?y => scrutinee y
    | ?l !! _ => scrutinee l
    | Nat.eqb (length ?l) _ => scrutinee l
    | _ => x
    end.
Ltac next :=
    match goal with
    | |- succeeds ?m = _ => let x := scrutinee m in split_on x
    end.

  (** When the four signatures that the constructor reads without a check of
      their class are function types, the checks pass exactly when the
      invariants hold, I4 being weakened to [Spec.I4_result_only]. *)
Lemma validate_succeeds i p w z a m r b u :
    isinstance_FunctionType (type_signature i) = true →
    isinstance_FunctionType (type_signature p) = true →
    isinstance_FunctionType (type_signature w) = true →
    isinstance_FunctionType (type_signature u) = true →
    succeeds (validate is_assignable_from format_type i p w z a m r b u)
    = Spec.enforced_invariants is_assignable_from i p w z a m r b u.
  Proof.
    intros Hi Hp Hw Hu.
    unfold validate, Spec.enforced_invariants.
    rewrite succeeds_bind.
    unfold Spec.I12.
    pose proof (loop_succeeds
                  [("initialize", i); ("prepare", p); ("work", w); ("zero", z);
                   ("accumulate", a); ("merge", m); ("report", r);
                   ("bitwidth", b); ("update", u)]) as Hloop.
    change (_.*2) with [i; p; w; z; a; m; r; b; u] in Hloop.
    rewrite <- Hloop. clear Hloop.
    destruct (for_each _ _) as [e|[]]; [by rewrite andb_false_r|].
    rewrite andb_true_r.
    unfold Spec.I1, Spec.I2, Spec.I3, Spec.I4_result_only, Spec.I5, Spec.I6,
      Spec.I7, Spec.I8, Spec.I9, Spec.I10, Spec.I11, Spec.signature, ne.
    destruct i as [? ? [| | |ip ir]], p as [? ? [| | |pp pr]],
      w as [? ? [| | |wp wr]], u as [? ? [| | |up ur]]; try discriminate.
    destruct z as [? ? z_sig], a as [? ? a_sig], m as [? ? m_sig],
      r as [? ? r_sig], b as [? ? b_sig]; simpl.
    unfold parameter, result, getitem, not_a_two_tuple, check_len, len,
      check_type_FunctionType, check_assignable_from, raise_if,
      isinstance_NamedTupleType, to_type, Spec.two_tuple, Spec.fields.
    simpl.
    repeat next.
    all: repeat (first
      [ case_match
      | match goal with |- context [mbind _ ?o] => destruct o end ]; settle).
  Qed.

End Validate.

(** ** The constructor as a whole *)

Section Constructor.

Variable is_assignable_from : Type_ → Type_ → bool.
Variable format_type : Type_ → string.
Variable compact_representation : Type_ → string.

Lemma init_run i p w z a m r b u (self : Self) :
    __init__ is_assignable_from format_type i p w z a m r b u self
    = match validate is_assignable_from format_type i p w z a m r b u with
      | Raise e => (Raise e, self)
      | Return _ => (Return tt, assigned i p w z a m r b u self)
      end.
  Proof.
    unfold __init__, lift, mbind, Py_bind.
    by destruct (validate _ _ _ _ _ _ _ _ _ _ _) as [e|[]].
  Qed.

Lemma new_run i p w z a m r b u :
    new is_assignable_from format_type i p w z a m r b u
    = match validate is_assignable_from format_type i p w z a m r b u with
      | Raise e => Raise e
      | Return _ => Return (assigned i p w z a m r b u ∅)
      end.
  Proof.
    unfold new. rewrite init_run.
    by destruct (validate _ _ _ _ _ _ _ _ _ _ _) as [e|[]].
  Qed.

Lemma new_succeeds i p w z a m r b u :
    isinstance_FunctionType (type_signature i) = true →
    isinstance_FunctionType (type_signature p) = true →
    isinstance_FunctionType (type_signature w) = true →
    isinstance_FunctionType (type_signature u) = true →
    succeeds (new is_assignable_from format_type i p w z a m r b u)
    = Spec.enforced_invariants is_assignable_from i p w z a m r b u.
  Proof.
    intros Hi Hp Hw Hu.
    rewrite new_run, <- (validate_succeeds _ format_type) by done.
    by destruct (validate _ _ _ _ _ _ _ _ _ _ _) as [e|[]].
  Qed.

  (** For function signatures, every input that satisfies I1 to I12 is
      accepted, and every accepted input satisfies them all with the possible
      exception of the first half of I4. *)
Lemma new_Return_iff i p w z a m r b u :
    isinstance_FunctionType (type_signature i) = true →
    isinstance_FunctionType (type_signature p) = true →
    isinstance_FunctionType (type_signature w) = true →
    isinstance_FunctionType (type_signature u) = true →
    (∃ self, new is_assignable_from format_type i p w z a m r b u = Return self)
    ↔ Spec.enforced_invariants is_assignable_from i p w z a m r b u = true.
  Proof.
    intros Hi Hp Hw Hu. by rewrite <- new_succeeds, succeeds_Return.
  Qed.

Lemma all_invariants_enforced i p w z a m r b u :
    Spec.all_invariants is_assignable_from i p w z a m r b u
    = Spec.enforced_invariants is_assignable_from i p w z a m r b u
      && Spec.I4 z.
  Proof.
    unfold Spec.all_invariants, Spec.enforced_invariants, Spec.I4,
      Spec.I4_result_only.
    destruct (Spec.signature z) as [[q s]|]; simpl;
      apply eq_true_iff_eq; rewrite !andb_true_iff; intuition congruence.
  Qed.

Lemma new_Return_assigned i p w z a m r b u (self : Self) :
    new is_assignable_from format_type i p w z a m r b u = Return self →
    self = assigned i p w z a m r b u ∅.
  Proof.
    rewrite new_run. destruct (validate _ _ _ _ _ _ _ _ _ _ _); congruence.
  Qed.

End Constructor.

(** ** Reading error messages *)

Lemma prefix_app (s t : string) : String.prefix s (s +:+ t) = true.
Proof.
  induction s as [|c s IH]; simpl; [by destruct t|].
  destruct (Ascii.ascii_dec c c); [exact IH|done].
Qed.

Lemma mentions_prefix (needle text : string) :
  String.prefix needle text = true → mentions needle text = true.
Proof. intros H. destruct text; cbn [mentions]; by rewrite H. Qed.

Lemma mentions_app (needle before after : string) :
  mentions needle (before +:+ needle +:+ after) = true.
Proof.
  induction before as [|c before IH].
  - change ("" +:+ needle +:+ after) with (needle +:+ after).
    apply mentions_prefix, prefix_app.
  - change (String c before +:+ needle +:+ after)
      with (String c (before +:+ needle +:+ after)).
    cbn [mentions]. rewrite IH. apply orb_true_r.
Qed.

(** ** The summary of a constructed instance *)

Section Summary.

Variable compact_representation : Type_ → string.
Variables i p w z a m r b u : Computation.
Variable self : Self.

Lemma assigned_lookup :
  let self' := assigned i p w z a m r b u self in
  self' !! "_initialize" = Some i ∧ self' !! "_prepare" = Some p
  ∧ self' !! "_work" = Some w ∧ self' !! "_zero" = Some z
  ∧ self' !! "_accumulate" = Some a ∧ self' !! "_merge" = Some m
  ∧ self' !! "_report" = Some r ∧ self' !! "_bitwidth" = Some b
  ∧ self' !! "_update" = Some u.
Proof. unfold assigned. repeat split; by simplify_map_eq. Qed.

Lemma summary_run {W} (print_fn : string → W → W) (sink : W) :
  summary compact_representation print_fn sink
    (assigned i p w z a m r b u self)
  = (Return (foldl (λ out l, print_fn l out) sink
               (summary_lines compact_representation i p w z a m r b)),
     assigned i p w z a m r b u self).
Proof.
  destruct assigned_lookup as (Hi & Hp & Hw & Hz & Ha & Hm & Hr & Hb & Hu).
  unfold summary, initialize, prepare, work, zero, accumulate, merge, report,
    bitwidth, getattr, mbind, Py_bind.
  by rewrite Hi, Hp, Hw, Hz, Ha, Hm, Hr, Hb.
Qed.

End Summary.

(** ** Signatures that are structs *)

(** The constructor reads [.parameter] and [.result] of the signatures of
    [initialize], [prepare], [work] and [update] without a check of their
    class: a struct with fields of these names passes for a function type. *)
Lemma struct_signatures_accepted :
  let initialize1 :=
    Examples.tensorflow (NamedTupleType [(Some "result", Examples.int32)]) in
  let prepare1 :=
    Examples.tensorflow
      (NamedTupleType [(Some "parameter", Examples.int32);
                       (Some "result", Examples.int32)]) in
  new type_eqb Examples.compact initialize1 prepare1 Examples.work0
    Examples.zero0 Examples.accumulate0 Examples.merge0 Examples.report0
    Examples.bitwidth0 Examples.update0
  = Return (assigned initialize1 prepare1 Examples.work0 Examples.zero0
              Examples.accumulate0 Examples.merge0 Examples.report0
              Examples.bitwidth0 Examples.update0 ∅)
  ∧ Spec.I1 initialize1 prepare1 = false.
Proof. split; reflexivity. Qed.

(** ** The shapes that the checks establish *)

Lemma not_a_two_tuple_false (x : option Type_) :
  not_a_two_tuple x = Return false →
  ∃ e0 e1, x = Some (NamedTupleType [e0; e1]).
Proof.
  unfold not_a_two_tuple, isinstance_NamedTupleType, len.
  destruct x as [[|es| |]|]; simpl; try discriminate.
  destruct es as [|e0 [|e1 [|]]]; simpl; try discriminate. eauto.
Qed.

Lemma check_len_2 (x : option Type_) (v : unit) :
  check_len x 2 = Return v →
  ∃ e0 e1, x = Some (NamedTupleType [e0; e1]).
Proof.
  unfold check_len, len, raise_if.
  destruct x as [[|es| |]|]; simpl; try discriminate.
  destruct es as [|e0 [|e1 [|]]]; simpl; try discriminate. eauto.
Qed.

Lemma check_assignable_from_wider
    (is_assignable_from is_assignable_from' : Type_ → Type_ → bool)
    (x : option Type_) (y : Type_) (v : unit) :
  (∀ t s, is_assignable_from t s = true → is_assignable_from' t s = true) →
  check_assignable_from is_assignable_from x y = Return v →
  check_assignable_from is_assignable_from' x y = Return v.
Proof.
  intros Hwider. unfold check_assignable_from, raise_if.
  destruct x as [t|]; [|done].
  destruct (is_assignable_from t y) eqn:H; [|done].
  by rewrite (Hwider _ _ H).
Qed.

(** ** Stepping through the checks *)

(** The call that the evaluation of a computation is waiting for. *)
Ltac pending x :=
  lazymatch x with
  | match ?y with _ => _ end => pending y
  | mbind _ ?y => pending y
  | _ => x
  end.

(** One step of the evaluation of the left-hand side of [lhs = rhs → _]: the
    pending call either raises or returns. *)
Ltac step :=
  lazymatch goal with
  | |- ?lhs = _ → _ =>
      let x := pending lhs in
      lazymatch x with
      | Raise _ => fail
      | Return _ => fail
      | raise_if ?c _ =>
          let H := fresh "Hc" in
          destruct c eqn:H;
          [ match goal with
            | |- context [raise_if true ?e] =>
                change (raise_if true e) with (@Raise unit e)
            end
          | match goal with
            | |- context [raise_if false ?e] =>
                change (raise_if false e) with (@Return unit tt)
            end ];
          cbn [mbind Res_bind]
      | _ =>
          let H := fresh "Hx" in
          destruct x as [?|?] eqn:H; cbn [mbind Res_bind]
      end
  end.

Ltac close_raise :=
  lazymatch goal with
  | |- Raise _ = Return _ → _ => intros [=]
  | |- _ => idtac
  end.

(** The outcome of the loop, whatever it is. *)
Ltac forget_loop :=
  match goal with
  | |- context [mbind _ (for_each ?f ?l)] => generalize (for_each f l)
  end.

(** An accessor or a library check raised [e]: [e] is none of the errors of
    the constructor's own [raise] statements. *)
Ltac library_raise H :=
  unfold parameter, result, getitem, not_a_two_tuple, check_len, len,
    check_type_FunctionType, check_assignable_from, raise_if, mbind, Res_bind,
    mthrow, Res_throw, mret, Res_ret in H;
  repeat case_match; simplify_eq/=.

(** ** The error of the first unmet invariant *)




(** ** The claims *)

Import Examples.

(** C1. The constructor does not succeed exactly when I1 to I12 hold: it
    accepts a round whose [zero] takes an argument, against I4, while all the
    other invariants hold of it. *)
Theorem new_accepts_what_I4_excludes :
  succeeds (new type_eqb compact initialize0 prepare0 work0 zero_unary
              accumulate0 merge0 report0 bitwidth0 update0) = true
  ∧ Spec.all_invariants type_eqb initialize0 prepare0 work0 zero_unary
      accumulate0 merge0 report0 bitwidth0 update0 = false
  ∧ Spec.enforced_invariants type_eqb initialize0 prepare0 work0 zero_unary
      accumulate0 merge0 report0 bitwidth0 update0 = true.
Proof. repeat split; reflexivity. Qed.

(** C3. A [zero] whose parameter is not empty is accepted: the instance is
    built and its [zero] is the handle of signature [(int32 -> int32)]. *)
Theorem new_accepts_zero_with_parameter :
  new type_eqb compact initialize0 prepare0 work0 zero_unary accumulate0 merge0
    report0 bitwidth0 update0
  = Return (assigned initialize0 prepare0 work0 zero_unary accumulate0 merge0
              report0 bitwidth0 update0 ∅)
  ∧ parameter (type_signature zero_unary) = Return (Some int32).
Proof. split; reflexivity. Qed.

(** C4. The first field of the result of [work] is subscripted without a
    check of its shape: when it is the empty struct, or a struct of one field,
    the constructor fails with [IndexError]. *)
Theorem new_IndexError_on_short_bundle :
  new type_eqb compact initialize0 prepare0 work_empty_bundle zero0 accumulate0
    merge0 report0 bitwidth0 update0 = Raise IndexError
  ∧ new type_eqb compact initialize0 prepare0 work_short_bundle zero0
      accumulate0 merge0 report0 bitwidth0 update0 = Raise IndexError.
Proof. split; reflexivity. Qed.

(** C2, counterexample. [zero] is of kind [lambda] and the nine signatures
    are those of the well-formed round, yet the constructor does not fail
    with the kind-mismatch error: the descriptor of [initialize], which comes
    first, is not a [Computation] message, and the error is the
    [AssertionError] of that handle. *)
Lemma kind_mismatch_preceded_by_missing_definition :
  ¬ (_computation_proto (handle "lambda" (type_signature zero0))
       = Some (ComputationProto (Some "lambda")) →
     ∃ k, new type_eqb compact (malformed (type_signature initialize0))
            prepare0 work0 (handle "lambda" (type_signature zero0))
            accumulate0 merge0 report0 bitwidth0 update0
          = Raise (kind_mismatch k)).
Proof. intros H. by destruct (H eq_refl) as [k Hk]. Qed.

(** C2, amended. When the first argument, in the order of the constructor,
    that is not a well-formed native kernel is a computation whose descriptor
    is a [Computation] message of another kind [k], the constructor fails with
    the kind-mismatch error for [k], whatever the nine type signatures are. *)
Theorem kind_checked_before_types
    (is_assignable_from : Type_ → Type_ → bool) (format_type : Type_ → string)
    (i p w z a m r b u : Computation)
    (pre post : list Computation) (c : Computation) (k : option string) :
  [i; p; w; z; a; m; r; b; u] = (pre ++ c :: post)%list →
  Forall (λ x, Spec.native_kernel x = true) pre →
  isinstance_Computation c = true →
  _computation_proto c = Some (ComputationProto k) →
  k ≠ Some "tensorflow" →
  new is_assignable_from format_type i p w z a m r b u
  = Raise (kind_mismatch k).
Proof.
  intros Hl Hpre Hi Hc Hk. rewrite new_run. unfold validate.
  destruct (loop_first_offender
              [("initialize", i); ("prepare", p); ("work", w); ("zero", z);
               ("accumulate", a); ("merge", m); ("report", r);
               ("bitwidth", b); ("update", u)] pre c post Hl Hpre)
    as (label & _ & Hraise).
  by rewrite (Hraise _ (check_computation_kind label c k Hi Hc Hk)).
Qed.

Lemma kind_checked_before_types_witness :
  new type_eqb compact initialize0 prepare0 work0
    (handle "lambda" (type_signature zero0)) accumulate0 merge0 report0
    bitwidth0 update0
  = Raise (kind_mismatch (Some "lambda")).
Proof.
  apply (kind_checked_before_types type_eqb compact _ _ _ _ _ _ _ _ _
           [initialize0; prepare0; work0] [accumulate0; merge0; report0;
           bitwidth0; update0] (handle "lambda" (type_signature zero0))
           (Some "lambda")).
  - reflexivity.
  - repeat constructor.
  - reflexivity.
  - reflexivity.
  - discriminate.
Defined.

(** C9, counterexample. The error raised for a [zero] of kind [lambda] has a
    message that mentions the kind and does not mention the label. *)
Lemma kind_mismatch_omits_label :
  ¬ ∃ msg,
      new type_eqb compact initialize0 prepare0 work0
        (handle "lambda" (type_signature zero0)) accumulate0 merge0 report0
        bitwidth0 update0 = Raise (TypeError msg)
      ∧ mentions "zero" msg = true
      ∧ mentions "lambda" msg = true.
Proof. intros (msg & Hnew & Hlabel & _). by injection Hnew as <-. Qed.

(** C9, amended. The kind-mismatch error carries a message that mentions the
    kind observed on the first argument that is not a native kernel, a
    computation whose descriptor is of another kind; the message is determined
    by that kind alone. *)
Theorem kind_mismatch_reports_kind
    (is_assignable_from : Type_ → Type_ → bool) (format_type : Type_ → string)
    (i p w z a m r b u : Computation)
    (pre post : list Computation) (c : Computation) (k : option string) :
  [i; p; w; z; a; m; r; b; u] = (pre ++ c :: post)%list →
  Forall (λ x, Spec.native_kernel x = true) pre →
  isinstance_Computation c = true →
  _computation_proto c = Some (ComputationProto k) →
  k ≠ Some "tensorflow" →
  ∃ msg,
    new is_assignable_from format_type i p w z a m r b u
    = Raise (TypeError msg)
    ∧ TypeError msg = kind_mismatch k
    ∧ mentions (format_which k) msg = true.
Proof.
  intros Hl Hpre Hi Hc Hk. eexists. split; [|split; [reflexivity|]].
  - rewrite new_run. unfold validate.
    destruct (loop_first_offender
                [("initialize", i); ("prepare", p); ("work", w); ("zero", z);
                 ("accumulate", a); ("merge", m); ("report", r);
                 ("bitwidth", b); ("update", u)] pre c post Hl Hpre)
      as (label & _ & Hraise).
    by rewrite (Hraise _ (check_computation_kind label c k Hi Hc Hk)).
  - apply (mentions_app (format_which k)
             "Expected all computations supplied as arguments to be plain TensorFlow, found "
             ".").
Qed.

Lemma kind_mismatch_reports_kind_witness :
  ∃ msg,
    new type_eqb compact initialize0 prepare0 work0 zero0 accumulate0
      (handle "intrinsic" (type_signature merge0)) report0 bitwidth0 update0
    = Raise (TypeError msg)
    ∧ TypeError msg = kind_mismatch (Some "intrinsic")
    ∧ mentions "intrinsic" msg = true.
Proof.
  apply (kind_mismatch_reports_kind type_eqb compact _ _ _ _ _ _ _ _ _
           [initialize0; prepare0; work0; zero0; accumulate0]
           [report0; bitwidth0; update0]
           (handle "intrinsic" (type_signature merge0)) (Some "intrinsic")).
  - reflexivity.
  - repeat constructor.
  - reflexivity.
  - reflexivity.
  - discriminate.
Defined.




(** C5. For every accepted input, the parameter of [update] is the struct of
    the result of [initialize] and of the struct of the result of [report]
    and the second field of the first field of the result of [work]. *)
Theorem update_parameter_enforced
    (is_assignable_from : Type_ → Type_ → bool) (format_type : Type_ → string)
    (i p w z a m r b u : Computation) (self : Self) :
  new is_assignable_from format_type i p w z a m r b u = Return self →
  ∃ s rr wr bundle side,
    result (type_signature i) = Return s
    ∧ result (type_signature r) = Return rr
    ∧ result (type_signature w) = Return wr
    ∧ getitem (Some wr) 0 = Return bundle
    ∧ getitem (Some bundle) 1 = Return side
    ∧ parameter (type_signature u)
      = Return (Some (to_type [s; to_type [rr; side]])).
Proof.
  rewrite new_run. unfold validate. forget_loop.
  intros [e|[]]; [done|]. cbn [mbind Res_bind].
  repeat (step; close_raise).
  intros _.
  match goal with
  | H : ne _ (Some (to_type _)) = false |- _ => apply ne_false in H as ->
  end.
  by eexists _, _, _, _, _.
Qed.

Lemma update_parameter_enforced_witness :
  ∃ s rr wr bundle side,
    result (type_signature initialize0) = Return s
    ∧ result (type_signature report0) = Return rr
    ∧ result (type_signature work0) = Return wr
    ∧ getitem (Some wr) 0 = Return bundle
    ∧ getitem (Some bundle) 1 = Return side
    ∧ parameter (type_signature update0)
      = Return (Some (to_type [s; to_type [rr; side]])).
Proof.
  apply (update_parameter_enforced type_eqb compact initialize0 prepare0 work0
           zero0 accumulate0 merge0 report0 bitwidth0 update0
           (assigned initialize0 prepare0 work0 zero0 accumulate0 merge0
              report0 bitwidth0 update0 ∅)).
  reflexivity.
Defined.






(** C8. The ninth line of the summary, labelled [update], renders the
    signature of [initialize], and two constructed instances that differ in
    their [update] alone have the same summary. *)
Theorem summary_update_line_renders_initialize
    (is_assignable_from : Type_ → Type_ → bool) (format_type : Type_ → string)
    (compact_representation : Type_ → string)
    (i p w z a m r b u u' : Computation) (self self' : Self)
    {W} (print_fn : string → W → W) (sink : W) :
  new is_assignable_from format_type i p w z a m r b u = Return self →
  new is_assignable_from format_type i p w z a m r b u' = Return self' →
  (summary compact_representation print_fn sink self).1
  = (summary compact_representation print_fn sink self').1
  ∧ ∃ lines,
      (summary compact_representation collect [] self).1 = Return lines
      ∧ length lines = 9
      ∧ lines !! 8
        = Some (ljust "update" 10 +:+ ": "
                +:+ compact_representation (type_signature i)).
Proof.
  intros Hnew Hnew'.
  apply new_Return_assigned in Hnew as ->.
  apply new_Return_assigned in Hnew' as ->.
  rewrite !summary_run. split; [done|].
  by eexists.
Qed.

Lemma summary_update_line_renders_initialize_witness :
  (summary compact collect []
     (assigned initialize0 prepare0 work0 zero0 accumulate0 merge0 report0
        bitwidth0 update0 ∅)).1
  = (summary compact collect []
       (assigned initialize0 prepare0 work0 zero0 accumulate0 merge0 report0
          bitwidth0 update1 ∅)).1
  ∧ ∃ lines,
      (summary compact collect []
         (assigned initialize0 prepare0 work0 zero0 accumulate0 merge0 report0
            bitwidth0 update0 ∅)).1 = Return lines
      ∧ length lines = 9
      ∧ lines !! 8
        = Some (ljust "update" 10 +:+ ": "
                +:+ compact (type_signature initialize0)).
Proof.
  apply (summary_update_line_renders_initialize type_eqb compact compact
           initialize0 prepare0 work0 zero0 accumulate0 merge0 report0
           bitwidth0 update0 update1).
  - reflexivity.
  - reflexivity.
Defined.

(** ** Further properties of the constructor *)

(** X1. Each read-only property of a constructed instance returns the handle
    that was passed to the constructor in that position, and leaves the
    instance as it is. *)
Theorem properties_return_the_arguments
    (is_assignable_from : Type_ → Type_ → bool) (format_type : Type_ → string)
    (i p w z a m r b u : Computation) (self : Self) :
  new is_assignable_from format_type i p w z a m r b u = Return self →
  initialize self = (Return i, self)
  ∧ prepare self = (Return p, self)
  ∧ work self = (Return w, self)
  ∧ zero self = (Return z, self)
  ∧ accumulate self = (Return a, self)
  ∧ merge self = (Return m, self)
  ∧ report self = (Return r, self)
  ∧ bitwidth self = (Return b, self)
  ∧ update self = (Return u, self).
Proof.
  intros Hnew. apply new_Return_assigned in Hnew as ->.
  destruct (assigned_lookup i p w z a m r b u ∅)
    as (Hi & Hp & Hw & Hz & Ha & Hm & Hr & Hb & Hu).
  unfold initialize, prepare, work, zero, accumulate, merge, report, bitwidth,
    update, getattr.
  by rewrite Hi, Hp, Hw, Hz, Ha, Hm, Hr, Hb, Hu.
Qed.

Lemma properties_return_the_arguments_witness :
  let self := assigned initialize0 prepare0 work0 zero0 accumulate0 merge0
                report0 bitwidth0 update0 ∅ in
  initialize self = (Return initialize0, self)
  ∧ prepare self = (Return prepare0, self)
  ∧ work self = (Return work0, self)
  ∧ zero self = (Return zero0, self)
  ∧ accumulate self = (Return accumulate0, self)
  ∧ merge self = (Return merge0, self)
  ∧ report self = (Return report0, self)
  ∧ bitwidth self = (Return bitwidth0, self)
  ∧ update self = (Return update0, self).
Proof.
  apply (properties_return_the_arguments type_eqb compact initialize0 prepare0
           work0 zero0 accumulate0 merge0 report0 bitwidth0 update0).
  reflexivity.
Defined.

(** X2. When the signatures of [initialize], [prepare], [work] and [update],
    which the constructor reads without a check of their class, are function
    types, the constructor returns an instance exactly when the nine handles
    are native kernels and their signatures pass the eleven type checks that
    the body performs: I1 to I3, I5 to I11, and, for [zero], no more than
    being a function type. *)
Theorem construction_succeeds_iff
    (is_assignable_from : Type_ → Type_ → bool) (format_type : Type_ → string)
    (i p w z a m r b u : Computation) :
  isinstance_FunctionType (type_signature i) = true →
  isinstance_FunctionType (type_signature p) = true →
  isinstance_FunctionType (type_signature w) = true →
  isinstance_FunctionType (type_signature u) = true →
  (∃ self, new is_assignable_from format_type i p w z a m r b u = Return self)
  ↔ Spec.I12 i p w z a m r b u = true
    ∧ Spec.I1 i p = true
    ∧ Spec.I2 p w = true
    ∧ Spec.I3 w = true
    ∧ Spec.I4_result_only z = true
    ∧ Spec.I5 is_assignable_from w z a = true
    ∧ Spec.I6 is_assignable_from a = true
    ∧ Spec.I7 is_assignable_from a m = true
    ∧ Spec.I8 is_assignable_from m r = true
    ∧ Spec.I9 b = true
    ∧ Spec.I10 i w r u = true
    ∧ Spec.I11 i u = true.
Proof.
  intros Hi Hp Hw Hu.
  rewrite <- succeeds_Return, new_succeeds by done.
  unfold Spec.enforced_invariants. rewrite !andb_true_iff. tauto.
Qed.

Lemma construction_succeeds_iff_witness :
  (∃ self, new type_eqb compact initialize0 prepare0 work0 zero0 accumulate0
             merge0 report0 bitwidth0 update0 = Return self)
  ↔ Spec.I12 initialize0 prepare0 work0 zero0 accumulate0 merge0 report0
      bitwidth0 update0 = true
    ∧ Spec.I1 initialize0 prepare0 = true
    ∧ Spec.I2 prepare0 work0 = true
    ∧ Spec.I3 work0 = true
    ∧ Spec.I4_result_only zero0 = true
    ∧ Spec.I5 type_eqb work0 zero0 accumulate0 = true
    ∧ Spec.I6 type_eqb accumulate0 = true
    ∧ Spec.I7 type_eqb accumulate0 merge0 = true
    ∧ Spec.I8 type_eqb merge0 report0 = true
    ∧ Spec.I9 bitwidth0 = true
    ∧ Spec.I10 initialize0 work0 report0 update0 = true
    ∧ Spec.I11 initialize0 update0 = true.
Proof.
  apply (construction_succeeds_iff type_eqb compact initialize0 prepare0 work0
           zero0 accumulate0 merge0 report0 bitwidth0 update0).
  - reflexivity.
  - reflexivity.
  - reflexivity.
  - reflexivity.
Defined.



(** X4. When the nine handles are native kernels and the parameter of
    [prepare] differs from the result of [initialize], the constructor raises
    the [TypeError] of its first comparison, whose message renders both types,
    whatever the other seven signatures are. *)
Theorem prepare_must_take_the_initial_state
    (is_assignable_from : Type_ → Type_ → bool) (format_type : Type_ → string)
    (i p w z a m r b u : Computation)
    (prepare_parameter : option Type_) (prepare_result : Type_)
    (initialize_parameter : option Type_) (initialize_result : Type_) :
  Spec.I12 i p w z a m r b u = true →
  type_signature p = FunctionType prepare_parameter prepare_result →
  type_signature i = FunctionType initialize_parameter initialize_result →
  prepare_parameter ≠ Some initialize_result →
  new is_assignable_from format_type i p w z a m r b u
  = Raise
      (TypeError
         ("The `prepare` computation expects an argument of type "
          +:+ format_value format_type prepare_parameter
          +:+ ", which does not match the result type "
          +:+ format_type initialize_result +:+ " of `initialize`.")).
Proof.
  intros Hkinds Hp Hi Hne. rewrite new_run. unfold validate.
  rewrite (loop_passes _ _ _ _ _ _ _ _ _ Hkinds), Hp, Hi. simpl.
  apply ne_true in Hne. by rewrite Hne.
Qed.

Lemma prepare_must_take_the_initial_state_witness :
  new type_eqb compact initialize0 (tensorflow (FunctionType None int32)) work0
    zero0 accumulate0 merge0 report0 bitwidth0 update0
  = Raise
      (TypeError
         ("The `prepare` computation expects an argument of type "
          +:+ format_value compact None
          +:+ ", which does not match the result type "
          +:+ compact int32 +:+ " of `initialize`.")).
Proof.
  apply (prepare_must_take_the_initial_state type_eqb compact initialize0
           (tensorflow (FunctionType None int32)) work0 zero0 accumulate0
           merge0 report0 bitwidth0 update0 None int32 None int32).
  - reflexivity.
  - reflexivity.
  - reflexivity.
  - discriminate.
Defined.

(** X5. An accepted round can be iterated: the result of [initialize], the
    parameter of [prepare], the first field of the parameter of [update] and
    the first field of the result of [update] are one and the same type. *)
Theorem accepted_round_threads_the_state
    (is_assignable_from : Type_ → Type_ → bool) (format_type : Type_ → string)
    (i p w z a m r b u : Computation) (self : Self) :
  new is_assignable_from format_type i p w z a m r b u = Return self →
  ∃ S,
    result (type_signature i) = Return S
    ∧ parameter (type_signature p) = Return (Some S)
    ∧ (x ← parameter (type_signature u); getitem x 0) = Return S
    ∧ (x ← result (type_signature u); getitem (Some x) 0) = Return S.
Proof.
  rewrite new_run. unfold validate. forget_loop.
  intros [e|[]]; [done|]. cbn [mbind Res_bind].
  repeat (step; close_raise).
  intros _.
  repeat match goal with
         | H : ne _ _ = false |- _ => apply ne_false in H; simplify_eq
         end.
  eexists. split; [reflexivity|]. split; [reflexivity|]. split; [reflexivity|].
  simpl. done.
Qed.

Lemma accepted_round_threads_the_state_witness :
  ∃ S,
    result (type_signature initialize0) = Return S
    ∧ parameter (type_signature prepare0) = Return (Some S)
    ∧ (x ← parameter (type_signature update1); getitem x 0) = Return S
    ∧ (x ← result (type_signature update1); getitem (Some x) 0) = Return S.
Proof.
  apply (accepted_round_threads_the_state type_eqb compact initialize0 prepare0
           work0 zero0 accumulate0 merge0 report0 bitwidth0 update1
           (assigned initialize0 prepare0 work0 zero0 accumulate0 merge0
              report0 bitwidth0 update1 ∅)).
  reflexivity.
Defined.

(** X6. With an oracle under which every type is assignable from itself,
    every round of the shape that the checks describe is accepted, for all
    choices of the types: initialize [( -> S)], prepare [(S -> C)], work
    [(<D,C> -> <<U,B>,Y>)], zero [( -> A)], accumulate [(<A,U> -> A)], merge
    [(<A,A> -> A)], report [(A -> R)], bitwidth [( -> W)] and update
    [(<S,<R,B>> -> <S,X>)]. *)
Theorem well_typed_round_accepted
    (is_assignable_from : Type_ → Type_ → bool) (format_type : Type_ → string)
    (S C D U B A R W X Y : Type_) :
  (∀ t, is_assignable_from t t = true) →
  ∃ self,
    new is_assignable_from format_type
      (tensorflow (FunctionType None S))
      (tensorflow (FunctionType (Some S) C))
      (tensorflow (FunctionType (Some (to_type [D; C]))
                     (to_type [to_type [U; B]; Y])))
      (tensorflow (FunctionType None A))
      (tensorflow (FunctionType (Some (to_type [A; U])) A))
      (tensorflow (FunctionType (Some (to_type [A; A])) A))
      (tensorflow (FunctionType (Some A) R))
      (tensorflow (FunctionType None W))
      (tensorflow (FunctionType (Some (to_type [S; to_type [R; B]]))
                     (to_type [S; X])))
    = Return self.
Proof.
  intros Hrefl. apply new_Return_iff; [reflexivity..|].
  unfold Spec.enforced_invariants, Spec.I1, Spec.I2, Spec.I3,
    Spec.I4_result_only, Spec.I5, Spec.I6, Spec.I7, Spec.I8, Spec.I9, Spec.I10,
    Spec.I11, Spec.I12.
  simpl. by rewrite !Hrefl, !type_eqb_refl.
Qed.

Lemma well_typed_round_accepted_witness :
  ∃ self,
    new type_eqb compact
      (tensorflow (FunctionType None float32))
      (tensorflow (FunctionType (Some float32) empty))
      (tensorflow (FunctionType (Some (to_type [SequenceType int32; empty]))
                     (to_type [to_type [float32; int32]; empty])))
      (tensorflow (FunctionType None float32))
      (tensorflow (FunctionType (Some (to_type [float32; float32])) float32))
      (tensorflow (FunctionType (Some (to_type [float32; float32])) float32))
      (tensorflow (FunctionType (Some float32) float32))
      (tensorflow (FunctionType None int32))
      (tensorflow (FunctionType
                     (Some (to_type [float32; to_type [float32; int32]]))
                     (to_type [float32; empty])))
    = Return self.
Proof.
  apply (well_typed_round_accepted type_eqb compact float32 empty
           (SequenceType int32) float32 int32 float32 float32 int32 empty
           empty).
  intros t. apply type_eqb_refl.
Defined.

Section Unconstrained.

Variable is_assignable_from : Type_ → Type_ → bool.
Variable format_type : Type_ → string.

(** X7. The signature of [bitwidth] is free: two native kernels with
    function signatures can be exchanged as [bitwidth] without changing the
    outcome of the checks, error included. *)
Theorem bitwidth_signature_unconstrained
    (i p w z a m r b b' u : Computation) :
  Spec.native_kernel b = true → Spec.native_kernel b' = true →
  Spec.I9 b = true → Spec.I9 b' = true →
  validate is_assignable_from format_type i p w z a m r b u
  = validate is_assignable_from format_type i p w z a m r b' u.
Proof.
  intros Hb Hb' Hf Hf'.
  assert (check_type_FunctionType (type_signature b) = Return tt) as Hs.
  { unfold Spec.I9, Spec.signature in Hf. by destruct (type_signature b). }
  assert (check_type_FunctionType (type_signature b') = Return tt) as Hs'.
  { unfold Spec.I9, Spec.signature in Hf'. by destruct (type_signature b'). }
  unfold validate. cbn [for_each].
  rewrite (check_computation_native "bitwidth" b Hb),
    (check_computation_native "bitwidth" b' Hb').
  rewrite Hs, Hs'. reflexivity.
Qed.

(** X8. For a [work] that takes a struct of two fields and returns a struct
    of two fields the first of which is a struct of two fields or more, and an
    [update] that returns a struct of two fields, the constructor does not
    look at the client data type D, the client output Y, the server output X,
    the fields of the update bundle beyond the second, nor at the names of the
    fields of the parameter and of the result of [work] and of the result of
    [update]: changing them leaves the outcome of the checks, error included,
    as it is. *)
Theorem client_data_and_outputs_unconstrained
    (i p z a m r b : Computation)
    (work_is update_is : bool) (work_proto update_proto : option Proto)
    (n0 n0' n1 n1' : option string) (D D' C : Type_)
    (b0 b1 : option string * Type_) (rest rest' : list (option string * Type_))
    (m0 m0' m1 m1' : option string) (Y Y' : Type_)
    (update_parameter : option Type_)
    (k0 k0' k1 k1' : option string) (S' X X' : Type_) :
  validate is_assignable_from format_type i p
    {| isinstance_Computation := work_is;
       _computation_proto := work_proto;
       type_signature :=
         FunctionType (Some (NamedTupleType [(n0, D); (n1, C)]))
           (NamedTupleType
              [(m0, NamedTupleType (b0 :: b1 :: rest)); (m1, Y)]) |}
    z a m r b
    {| isinstance_Computation := update_is;
       _computation_proto := update_proto;
       type_signature :=
         FunctionType update_parameter
           (NamedTupleType [(k0, S'); (k1, X)]) |}
  = validate is_assignable_from format_type i p
      {| isinstance_Computation := work_is;
         _computation_proto := work_proto;
         type_signature :=
           FunctionType (Some (NamedTupleType [(n0', D'); (n1', C)]))
             (NamedTupleType
                [(m0', NamedTupleType (b0 :: b1 :: rest')); (m1', Y')]) |}
      z a m r b
      {| isinstance_Computation := update_is;
         _computation_proto := update_proto;
         type_signature :=
           FunctionType update_parameter
             (NamedTupleType [(k0', S'); (k1', X')]) |}.
Proof. destruct b0, b1. reflexivity. Qed.

End Unconstrained.

Lemma bitwidth_signature_unconstrained_witness :
  validate type_eqb compact initialize0 prepare0 work0 zero0 accumulate0
    merge0 report0 bitwidth0 update0
  = validate type_eqb compact initialize0 prepare0 work0 zero0 accumulate0
      merge0 report0 (tensorflow (FunctionType (Some float32) empty)) update0.
Proof.
  apply (bitwidth_signature_unconstrained type_eqb compact initialize0 prepare0
           work0 zero0 accumulate0 merge0 report0 bitwidth0
           (tensorflow (FunctionType (Some float32) empty)) update0).
  - reflexivity.
  - reflexivity.
  - reflexivity.
  - reflexivity.
Defined.

(** X9. The oracle is only ever asked to allow: a round accepted under one
    oracle is accepted under every oracle that allows at least as much. *)
Theorem wider_oracle_accepts_more
    (is_assignable_from is_assignable_from' : Type_ → Type_ → bool)
    (format_type : Type_ → string) (i p w z a m r b u : Computation) :
  (∀ t s, is_assignable_from t s = true → is_assignable_from' t s = true) →
  (∃ self, new is_assignable_from format_type i p w z a m r b u = Return self) →
  ∃ self, new is_assignable_from' format_type i p w z a m r b u = Return self.
Proof.
  intros Hwider [self Hnew].
  assert (validate is_assignable_from format_type i p w z a m r b u
          = Return tt) as Hv.
  { rewrite new_run in Hnew.
    by destruct (validate _ _ _ _ _ _ _ _ _ _ _) as [|[]]. }
  clear Hnew self. rewrite new_run.
  assert (validate is_assignable_from' format_type i p w z a m r b u
          = Return tt) as ->; [|eauto].
  revert Hv. unfold validate. forget_loop.
  intros [e|[]]; [done|]. cbn [mbind Res_bind].
  repeat (step; close_raise;
          try match goal with
              | H : check_assignable_from is_assignable_from _ _ = Return _
                |- _ =>
                  rewrite (check_assignable_from_wider _ _ _ _ _ Hwider H);
                  clear H; cbn [mbind Res_bind]
              end).
  done.
Qed.

Lemma wider_oracle_accepts_more_witness :
  ∃ self,
    new (λ _ _, true) compact initialize0 prepare0 work0 zero0 accumulate0
      merge0 report0 bitwidth0 update0 = Return self.
Proof.
  apply (wider_oracle_accepts_more type_eqb (λ _ _, true) compact initialize0
           prepare0 work0 zero0 accumulate0 merge0 report0 bitwidth0 update0).
  - reflexivity.
  - eexists. reflexivity.
Defined.

(** X10. Past the loop, every [TypeError] that carries a message of the
    constructor opens by naming the stage at fault in backquotes: [prepare],
    [work], [accumulate] or [update]; none opens by naming [initialize],
    [zero], [merge], [report] or [bitwidth]. *)
Theorem diagnostics_open_with_the_stage
    (is_assignable_from : Type_ → Type_ → bool) (format_type : Type_ → string)
    (i p w z a m r b u : Computation) (msg : string) :
  Spec.I12 i p w z a m r b u = true →
  new is_assignable_from format_type i p w z a m r b u = Raise (TypeError msg) →
  String.prefix "The `prepare` computation " msg = true
  ∨ String.prefix "The `work` computation " msg = true
  ∨ String.prefix "The `accumulate` computation " msg = true
  ∨ String.prefix "The `update` computation " msg = true.
Proof.
  intros Hloop. rewrite new_run. unfold validate.
  rewrite (loop_passes _ _ _ _ _ _ _ _ _ Hloop).
  clear Hloop. cbn [mbind Res_bind].
  repeat (step;
          try lazymatch goal with
              | |- Raise ?e = Raise _ → _ =>
                  first
                    [ is_var e; intros [= ->];
                      match goal with
                      | H : _ = Raise (TypeError _) |- _ => by library_raise H
                      end
                    | intros [= <-];
                      first [ left; reflexivity
                            | right; left; reflexivity
                            | right; right; left; reflexivity
                            | right; right; right; reflexivity ] ]
              end).
  intros [=].
Qed.

Lemma diagnostics_open_with_the_stage_witness :
  let msg :=
    "The `prepare` computation expects an argument of type "
    +:+ format_value compact (Some float32)
    +:+ ", which does not match the result type "
    +:+ compact int32 +:+ " of `initialize`." in
  String.prefix "The `prepare` computation " msg = true
  ∨ String.prefix "The `work` computation " msg = true
  ∨ String.prefix "The `accumulate` computation " msg = true
  ∨ String.prefix "The `update` computation " msg = true.
Proof.
  apply (diagnostics_open_with_the_stage type_eqb compact initialize0
           (tensorflow (FunctionType (Some float32) int32)) work0 zero0
           accumulate0 merge0 report0 bitwidth0 update0).
  - reflexivity.
  - reflexivity.
Defined.

(** X11. The two errors of subscripting that escape the constructor come from
    one place: the first field of the result of [work], which no check
    guards.  [IndexError] means that it is a struct of fewer than two fields;
    [TypeError] for a value that cannot be subscripted means that it is not a
    struct.  In both cases the result of [work] is a struct of two fields. *)
Theorem subscript_errors_come_from_the_bundle
    (is_assignable_from : Type_ → Type_ → bool) (format_type : Type_ → string)
    (i p w z a m r b u : Computation) (e : Exn) :
  new is_assignable_from format_type i p w z a m r b u = Raise e →
  e = IndexError ∨ e = not_subscriptable →
  ∃ n0 bundle n1 y,
    result (type_signature w) = Return (NamedTupleType [(n0, bundle); (n1, y)])
    ∧ match bundle with
      | NamedTupleType es => e = IndexError ∧ length es < 2
      | _ => e = not_subscriptable
      end.
Proof.
  rewrite new_run. unfold validate.
  destruct (Spec.I12 i p w z a m r b u) eqn:Hkinds.
  2: { destruct (loop_fails i p w z a m r b u Hkinds)
         as [(label & _ & ->)|[->|[->|(k & _ & ->)]]];
         by intros [= <-] [?|?]. }
  rewrite (loop_passes _ _ _ _ _ _ _ _ _ Hkinds). clear Hkinds.
  cbn [mbind Res_bind].
  repeat (step;
          try lazymatch goal with
              | |- Raise ?e' = Raise _ → _ =>
                  tryif is_var e' then intros [= ->] else by intros [= <-] [?|?]
              end).
  all: try (intros [=]).
  all: intros Hsub.
  all: repeat match goal with
         | H : not_a_two_tuple _ = Return false |- _ =>
             apply not_a_two_tuple_false in H as ([? ?] & [? ?] & ?);
             simplify_eq
         | H : check_len _ 2 = Return _ |- _ =>
             apply check_len_2 in H as ([? ?] & [? ?] & ?); simplify_eq
         end.
  all: try match goal with
         | H : parameter _ = Raise _ |- _ =>
             by destruct Hsub; subst; library_raise H
         | H : result _ = Raise _ |- _ =>
             by destruct Hsub; subst; library_raise H
         | H : check_type_FunctionType _ = Raise _ |- _ =>
             by destruct Hsub; subst; library_raise H
         | H : check_assignable_from _ _ _ = Raise _ |- _ =>
             by destruct Hsub; subst; library_raise H
         | H : check_len _ _ = Raise _ |- _ =>
             by destruct Hsub; subst; library_raise H
         | H : not_a_two_tuple _ = Raise _ |- _ =>
             by destruct Hsub; subst; library_raise H
         end.
  all: simpl in *; unfold mret, Res_ret, mthrow, Res_throw in *; simplify_eq.
  all: do 4 eexists; (split; [reflexivity|]).
  all: match goal with
       | H : match ?bundle with _ => _ end = Raise _ |- _ =>
           destruct bundle as [|es| |]; simplify_eq; try done
       end.
  all: destruct es as [|[? ?] [|[? ?] ?]]; simpl in *; simplify_eq.
  all: split; [done|simpl; lia].
Qed.

Lemma subscript_errors_come_from_the_bundle_witness :
  ∃ n0 bundle n1 y,
    result (type_signature work_short_bundle)
    = Return (NamedTupleType [(n0, bundle); (n1, y)])
    ∧ match bundle with
      | NamedTupleType es => IndexError = IndexError ∧ length es < 2
      | _ => IndexError = not_subscriptable
      end.
Proof.
  apply (subscript_errors_come_from_the_bundle type_eqb compact initialize0
           prepare0 work_short_bundle zero0 accumulate0 merge0 report0
           bitwidth0 update0 IndexError).
  - reflexivity.
  - left. reflexivity.
Defined.
